(** * TortoiseSchema: selective prefetch between Tortoise ORM and pydantic

    A shallow embedding of [models/base.py].  The two schema classes read a
    list of relation names off the class configuration, hand it to the ORM
    ([fetch_related] / [prefetch_related]), await the result and give it to
    pydantic's [from_orm].

    The ORM and pydantic are collaborators outside the repository: they are
    an interface here (class [Collaborators]) and the general theorems hold
    for all of its implementations; the runs at the end are on one of them,
    kept in memory.  Every call that crosses that interface is recorded in a
    trace, so that "how often" and "with which argument" are statements
    about the run.

    There are two readings of the five methods.  The first follows the
    calls, on arguments that have the methods called on them and with
    [fetch_fields] a list.  The second, [Detailed], adds what the
    interpreter does around the calls: attribute lookup, [await] and [for]
    on arbitrary values, [StopIteration] in an [async def], and
    [fetch_fields] as any iterable. *)

From stdpp Require Import base option list strings gmap.

(** ** Python values that cross the adapter *)

(** What the collaborators are made of: their objects (model instances,
    querysets, coroutines, schema instances), the exceptions they raise and
    the state they keep (database, loaded relations). *)
Class Universe := {
  Obj : Type;
  Exn : Type;
  World : Type;
}.

Set Warnings "-register-all".

Section Machine.
Context `{U : Universe}.

(** The adapter looks inside a value at one place only, the [for] of
    [TortoiseSchema.from_queryset].  In this first reading a Python list is
    iterated and nothing else is; the closer reading ([Detailed]) asks a
    collaborator's object for its elements. *)
Inductive value :=
  | VNone
  | VObj (o : Obj)
  | VList (items : list value).

(** Failures: what a collaborator raised, or the interpreter's [TypeError]
    at a [for] over something that is not iterable.  The source has no
    [raise] and no exception class. *)
Inductive error :=
  | Raised (e : Exn)
  | NotIterable (v : value).

Inductive result (A : Type) :=
  | Ok (a : A)
  | Err (e : error).
Global Arguments Ok {A} a.
Global Arguments Err {A} e.

(** ** Class configuration *)

(** [class Config: fetch_fields: Iterable[str]]: an annotation without a
    value, so the attribute exists only on a class that assigns it. *)
Record Config := { fetch_fields : option (list string) }.

(** The calls the adapter makes on its collaborators. *)
Inductive event :=
  | FetchRelated (model : value) (args : list string)
  | PrefetchRelated (queryset : value) (args : list string)
  | Await (awaitable : value)
  | FromOrm (cls : string) (obj : value).

(** The collaborators' side of the interface; each method runs in the
    collaborators' own state and returns or raises. *)
Class Collaborators := {
  (** [model.fetch_related( *args )]: the awaitable it returns *)
  fetch_related : value → list string → World → (Exn + value) * World;
  (** [queryset.prefetch_related( *args )]: the augmented request *)
  prefetch_related : value → list string → World → (Exn + value) * World;
  (** [await x] *)
  await : value → World → (Exn + value) * World;
  (** [cls.from_orm(obj)], pydantic's converter *)
  from_orm : string → value → World → (Exn + value) * World;
}.

Context `{C : Collaborators}.

Definition perform (ev : event) : World → (Exn + value) * World :=
  match ev with
  | FetchRelated m args => fetch_related m args
  | PrefetchRelated q args => prefetch_related q args
  | Await a => await a
  | FromOrm cls obj => from_orm cls obj
  end.

(** ** The machine

    [classes] is the state the adapter owns: the schema classes, each with
    its [__config__] (a class without an entry has pydantic's base
    configuration, which has no [fetch_fields]).  [world] belongs to the
    collaborators.  [trace] records the calls made on them, oldest first,
    each with its outcome. *)
Record machine := {
  classes : gmap string Config;
  world : World;
  trace : list (event * (Exn + value));
}.

Definition M (A : Type) : Type := machine → result A * machine.

Global Instance M_ret : MRet M := λ A a s, (Ok a, s).

Global Instance M_bind : MBind M := λ A B f m s,
  match m s with
  | (Ok a, s') => f a s'
  | (Err e, s') => (Err e, s')
  end.

Definition raise {A} (e : error) : M A := λ s, (Err e, s).

(** One call on a collaborator, recorded. *)
Definition call (ev : event) : M value := λ s,
  let '(r, w) := perform ev (world s) in
  (match r with inl e => Err (Raised e) | inr v => Ok v end,
   {| classes := classes s; world := w; trace := trace s ++ [(ev, r)] |}).

(** [getattr(cls.__config__, name, default)] for [name = "fetch_fields"]. *)
Definition getattr_fetch_fields (cls : string) (dflt : list string) : M (list string) := λ s,
  (Ok (default dflt (classes s !! cls ≫= fetch_fields)), s).

(** [for x in v] *)
Definition iterate (v : value) : M (list value) :=
  match v with
  | VList items => mret items
  | _ => raise (NotIterable v)
  end.

(** [[f(x) for x in xs]] *)
Fixpoint comprehension (f : value → M value) (xs : list value) : M (list value) :=
  match xs with
  | [] => mret []
  | x :: xs' => y ← f x; ys ← comprehension f xs'; mret (y :: ys)
  end.

End Machine.

Global Arguments value : clear implicits.
Global Arguments value {U}.

Module TortoiseSchema.
Section Ops.
Context `{C : Collaborators}.

(** [return getattr(cls.__config__, "fetch_fields", [])] *)
Definition get_prefetch_fields (cls : string) : M (list string) :=
  getattr_fetch_fields cls [].

(** [return cls.from_orm(await model.fetch_related( *cls.get_prefetch_fields()))] *)
Definition from_tortoise (cls : string) (model : value) : M value :=
  fields ← get_prefetch_fields cls;
  coro ← call (FetchRelated model fields);
  obj ← call (Await coro);
  call (FromOrm cls obj).

(** [return [cls.from_orm(model)
             for model in await queryset.prefetch_related( *cls.get_prefetch_fields())]] *)
Definition from_queryset (cls : string) (queryset : value) : M value :=
  fields ← get_prefetch_fields cls;
  q ← call (PrefetchRelated queryset fields);
  rows ← call (Await q);
  models ← iterate rows;
  schemas ← comprehension (λ model, call (FromOrm cls model)) models;
  mret (VList schemas).

(** [return cls.from_orm(await queryset.prefetch_related( *cls.get_prefetch_fields()))] *)
Definition from_queryset_single (cls : string) (queryset : value) : M value :=
  fields ← get_prefetch_fields cls;
  q ← call (PrefetchRelated queryset fields);
  obj ← call (Await q);
  call (FromOrm cls obj).

End Ops.
End TortoiseSchema.

Module TortoiseListSchema.
Section Ops.
Context `{C : Collaborators}.

(** [return getattr(cls.__config__, "fetch_fields", [])] *)
Definition get_prefetch_fields (cls : string) : M (list string) :=
  getattr_fetch_fields cls [].

(** [return cls.from_orm(await queryset.prefetch_related( *cls.get_prefetch_fields()))] *)
Definition from_queryset (cls : string) (queryset : value) : M value :=
  fields ← get_prefetch_fields cls;
  q ← call (PrefetchRelated queryset fields);
  rows ← call (Await q);
  call (FromOrm cls rows).

End Ops.
End TortoiseListSchema.

(** ** Running an operation *)

Section Runs.
Context `{C : Collaborators}.

(** The calls an operation makes on the collaborators when it is run from
    [s]: what the run adds to the trace. *)
Definition calls_of {A} (m : M A) (s : machine) : list (event * (Exn + value)) :=
  drop (length (trace s)) (trace (m s).2).

Definition is_fetch (c : event * (Exn + value)) : bool :=
  match c.1 with
  | FetchRelated _ _ | PrefetchRelated _ _ => true
  | _ => false
  end.

Definition is_await (c : event * (Exn + value)) : bool :=
  match c.1 with Await _ => true | _ => false end.

Definition is_from_orm (c : event * (Exn + value)) : bool :=
  match c.1 with FromOrm _ _ => true | _ => false end.

(** The relation names each fetch of a run was augmented with. *)
Definition augmentations (cs : list (event * (Exn + value))) : list (list string) :=
  omap (λ c, match c.1 with
             | FetchRelated _ args | PrefetchRelated _ args => Some args
             | _ => None
             end) cs.

(** The same, each as a set of names. *)
Definition relation_sets (cs : list (event * (Exn + value))) : list (gset string) :=
  list_to_set <$> augmentations cs.

(** The arguments the converter was called with, in order. *)
Definition converted_objects (cs : list (event * (Exn + value))) : list value :=
  omap (λ c, match c.1 with FromOrm _ obj => Some obj | _ => None end) cs.

Definition to_result (r : Exn + value) : result value :=
  match r with inl e => Err (Raised e) | inr v => Ok v end.

Definition after (s : machine) (w : World) (new : list (event * (Exn + value))) : machine :=
  {| classes := classes s; world := w; trace := trace s ++ new |}.

(** What [getattr] finds for a class. *)
Definition configured (cs : gmap string Config) (cls : string) : list string :=
  default [] (cs !! cls ≫= fetch_fields).

End Runs.

(** The four conversions, on a class [cls] and an argument [x] (a model
    instance for [from_tortoise], a queryset for the others). *)
Definition conversions `{C : Collaborators} (cls : string) (x : value) : list (M value) :=
  [ TortoiseSchema.from_tortoise cls x;
    TortoiseSchema.from_queryset cls x;
    TortoiseSchema.from_queryset_single cls x;
    TortoiseListSchema.from_queryset cls x ].

(** ** The shape of a run

    Three of the four conversions have the same body up to the first call:
    fetch, await, convert. *)

Section Shapes.
Context `{C : Collaborators}.

Definition fetch_await_convert (first : list string → event) (cls : string) : M value :=
  fields ← getattr_fetch_fields cls [];
  a ← call (first fields);
  b ← call (Await a);
  call (FromOrm cls b).

(** Every run of such a body from the world [w0] is one of three: the fetch
    call raises, the await raises, or both return and the converter is
    called.  The relation gives the outcome, the collaborators' final world
    and the calls made. *)
Inductive single_run (first : event) (cls : string) (w0 : World) :
    result value → World → list (event * (Exn + value)) → Prop :=
  | single_fetch_raises e w :
      perform first w0 = (inl e, w) →
      single_run first cls w0 (Err (Raised e)) w [(first, inl e)]
  | single_await_raises a w e w' :
      perform first w0 = (inr a, w) →
      await a w = (inl e, w') →
      single_run first cls w0 (Err (Raised e)) w' [(first, inr a); (Await a, inl e)]
  | single_converts a w b w' r w'' :
      perform first w0 = (inr a, w) →
      await a w = (inr b, w') →
      from_orm cls b w' = (r, w'') →
      single_run first cls w0 (to_result r) w''
        [(first, inr a); (Await a, inr b); (FromOrm cls b, r)].

(** The outcomes of the converter calls of a comprehension over [xs],
    started in world [w]: successes up to the first failure, and the world
    they leave. *)
Fixpoint convert_all (cls : string) (xs : list value) (w : World) :
    list (Exn + value) * World :=
  match xs with
  | [] => ([], w)
  | x :: xs' =>
      match from_orm cls x w with
      | (inl e, w') => ([inl e], w')
      | (inr y, w') =>
          let '(rs, w'') := convert_all cls xs' w' in (inr y :: rs, w'')
      end
  end.

(** The list a comprehension returns, from the outcomes of its calls. *)
Fixpoint collect (rs : list (Exn + value)) : result (list value) :=
  match rs with
  | [] => Ok []
  | inl e :: _ => Err (Raised e)
  | inr y :: rs' => match collect rs' with Ok ys => Ok (y :: ys) | Err e => Err e end
  end.

Definition convert_calls (cls : string) (xs : list value) (rs : list (Exn + value)) :
    list (event * (Exn + value)) :=
  zip_with (λ x r, (FromOrm cls x, r)) xs rs.

Inductive many_run (first : event) (cls : string) (w0 : World) :
    result value → World → list (event * (Exn + value)) → Prop :=
  | many_fetch_raises e w :
      perform first w0 = (inl e, w) →
      many_run first cls w0 (Err (Raised e)) w [(first, inl e)]
  | many_await_raises a w e w' :
      perform first w0 = (inr a, w) →
      await a w = (inl e, w') →
      many_run first cls w0 (Err (Raised e)) w' [(first, inr a); (Await a, inl e)]
  | many_not_iterable a w b w' :
      perform first w0 = (inr a, w) →
      await a w = (inr b, w') →
      (∀ items, b ≠ VList items) →
      many_run first cls w0 (Err (NotIterable b)) w' [(first, inr a); (Await a, inr b)]
  | many_converts a w xs w' rs w'' :
      perform first w0 = (inr a, w) →
      await a w = (inr (VList xs), w') →
      convert_all cls xs w' = (rs, w'') →
      many_run first cls w0
        (match collect rs with Ok ys => Ok (VList ys) | Err e => Err e end) w''
        ([(first, inr a); (Await a, inr (VList xs))] ++ convert_calls cls xs rs).


Definition count (p : event * (Exn + value) → bool) (cs : list (event * (Exn + value))) : nat :=
  length (List.filter p cs).

End Shapes.

(** ** An object source and a converter in memory

    A small ORM and converter in the manner of Tortoise and pydantic, to run
    the adapter on.  Rows are known by primary key; the world lists which
    relation of which row has been loaded.  As in Tortoise,
    [Model.fetch_related] loads the relations into the instance and its
    coroutine resolves to [None]; awaiting a queryset resolves to the rows. *)

Module InMemory.

Inductive obj :=
  | Row (pk : nat)
  | QuerySet (pks : list nat) (prefetch : list string)
  | QuerySetSingle (pk : nat) (prefetch : list string)
  | Coroutine (pk : nat) (rels : list string)
  | Schema (cls : string) (pk : nat) (loaded : list string)
  | RootSchema (cls : string) (pks : list nat).

#[export] Instance universe : Universe :=
  {| Obj := obj; Exn := string; World := list (nat * string) |}.

Definition load (pk : nat) (rels : list string) : list (nat * string) :=
  (λ r, (pk, r)) <$> rels.

Definition loaded_of (pk : nat) (w : list (nat * string)) : list string :=
  omap (λ p : nat * string, if Nat.eqb p.1 pk then Some p.2 else None) w.

Definition row_of (v : value) : option nat :=
  match v with VObj (Row pk) => Some pk | _ => None end.

Definition mem_fetch_related (m : value) (args : list string) (w : World) : (Exn + value) * World :=
  match m with
  | VObj (Row pk) => (inr (VObj (Coroutine pk args)), w)
  | _ => (inl "AttributeError"%string, w)
  end.

Definition mem_prefetch_related (q : value) (args : list string) (w : World) : (Exn + value) * World :=
  match q with
  | VObj (QuerySet pks pf) => (inr (VObj (QuerySet pks (pf ++ args))), w)
  | VObj (QuerySetSingle pk pf) => (inr (VObj (QuerySetSingle pk (pf ++ args))), w)
  | _ => (inl "AttributeError"%string, w)
  end.

Definition mem_await (a : value) (w : World) : (Exn + value) * World :=
  match a with
  | VObj (Coroutine pk rels) => (inr VNone, w ++ load pk rels)
  | VObj (QuerySet pks pf) =>
      (inr (VList ((λ pk, VObj (Row pk)) <$> pks)), w ++ concat ((λ pk, load pk pf) <$> pks))
  | VObj (QuerySetSingle pk pf) =>
      if Nat.eqb pk 0 then (inl "DoesNotExist"%string, w)
      else (inr (VObj (Row pk)), w ++ load pk pf)
  | _ => (inl "TypeError"%string, w)
  end.

Definition mem_from_orm (cls : string) (v : value) (w : World) : (Exn + value) * World :=
  match v with
  | VObj (Row pk) => (inr (VObj (Schema cls pk (loaded_of pk w))), w)
  | VList items =>
      match mapM row_of items with
      | Some pks => (inr (VObj (RootSchema cls pks)), w)
      | None => (inl "ValidationError"%string, w)
      end
  | _ => (inl "ValidationError"%string, w)
  end.

#[export] Instance collaborators : Collaborators :=
  {| fetch_related := mem_fetch_related;
     prefetch_related := mem_prefetch_related;
     await := mem_await;
     from_orm := mem_from_orm |}.

(** A schema class [Order] with [fetch_fields = ["customer"]], one [Item]
    with [fetch_fields = ["a", "a__b"]], and [Plain] whose [Config] does not
    set [fetch_fields]. *)
Definition schema_classes : gmap string Config :=
  <["Order"%string := {| fetch_fields := Some ["customer"%string] |}]>
  (<["Item"%string := {| fetch_fields := Some ["a"%string; "a__b"%string] |}]>
  (<["Plain"%string := {| fetch_fields := None |}]> ∅)).

Definition start : machine :=
  {| classes := schema_classes; world := []; trace := [] |}.

(** [await Order.get(pk=1)], already resolved; [Item.filter(...)], a
    request for three rows; one for no row; and [Order.get(pk=7)]. *)
Definition ref (o : obj) : value := VObj o.
Definition order : value := ref (Row 1).
Definition items : value := ref (QuerySet [1; 2; 3] []).
Definition no_items : value := ref (QuerySet [] []).
Definition order_missing : value := ref (QuerySetSingle 0 []).

End InMemory.

(** ** More to read off a trace *)

Section Observations.
Context `{C : Collaborators}.




Definition resolved (cs : list (event * (Exn + value))) : list value :=
  omap (λ c : event * (Exn + value),
          match c with (Await _, inr v) => Some v | _ => None end) cs.

(** The classes whose converter was called. *)
Definition converter_classes (cs : list (event * (Exn + value))) : list string :=
  omap (λ c, match c.1 with FromOrm cls _ => Some cls | _ => None end) cs.


End Observations.

(** ** A second source in memory

    As [InMemory], but a request for the row [0] resolves to [None] (as
    [first()] does when nothing matches) and the converter rejects the row
    [0]. *)

Module InMemoryOptional.
Import InMemory.

Definition opt_await (a : value) (w : World) : (Exn + value) * World :=
  match a with
  | VObj (QuerySetSingle 0 _) => (inr VNone, w)
  | _ => mem_await a w
  end.

Definition strict_from_orm (cls : string) (v : value) (w : World) : (Exn + value) * World :=
  match v with
  | VObj (Row 0) => (inl "ValidationError"%string, w)
  | _ => mem_from_orm cls v w
  end.

Definition collaborators : Collaborators :=
  {| fetch_related := mem_fetch_related;
     prefetch_related := mem_prefetch_related;
     await := opt_await;
     from_orm := strict_from_orm |}.


End InMemoryOptional.

(** ** A closer reading of the interpreter

    The same five methods, with what Python does around the calls written
    out: the attribute lookup that precedes a call and fails with
    [AttributeError] before anything is called; [await] on a value that is
    not awaitable; [for] over any iterable object; the rule that a
    [StopIteration] leaving an [async def] reaches the caller as
    [RuntimeError]; and [fetch_fields] as the source types it,
    [Iterable[str]], which may be a one-shot iterator that the [*] of a call
    consumes. *)

(** What the interpreter asks of the collaborators' objects. *)
Class ObjectModel `{U : Universe} := {
  (** [hasattr(v, name)] *)
  has_attr : value → string → bool;
  (** the elements [iter(o)] yields, for an object that is iterable; its
      iteration is finite and does nothing else *)
  elements : Obj → option (list value);
  (** [isinstance(e, StopIteration)] *)
  is_stop_iteration : Exn → bool;
}.

Module Detailed.

(** A value of [fetch_fields]: a list or tuple, read as often as wanted, or
    an iterator with the names it has not yet yielded. *)
Inductive names_object :=
  | Sequence (names : list string)
  | Iterator (remaining : list string).

Record Config := { fetch_fields : option names_object }.

Section Machine.
Context `{C : Collaborators} `{O : !ObjectModel}.

Inductive failure :=
  | Raises (e : Exn)
  | RuntimeError (cause : Exn)
  | AttributeError (v : value) (name : string)
  | NotAwaitable (v : value)
  | NotIterable (v : value).

Inductive outcome (A : Type) :=
  | Returns (a : A)
  | Fails (f : failure).
Global Arguments Returns {A} a.
Global Arguments Fails {A} f.

Record machine := {
  classes : gmap string Config;
  world : World;
  trace : list (event * (Exn + value));
}.

Definition D (A : Type) : Type := machine → outcome A * machine.

Global Instance D_ret : MRet D := λ A a s, (Returns a, s).

Global Instance D_bind : MBind D := λ A B f m s,
  match m s with
  | (Returns a, s') => f a s'
  | (Fails e, s') => (Fails e, s')
  end.

Definition fail {A} (f : failure) : D A := λ s, (Fails f, s).

(** [v.name], before the call *)
Definition lookup (v : value) (name : string) : D unit := λ s,
  if has_attr v name then (Returns (), s) else (Fails (AttributeError v name), s).

(** The call itself, recorded. *)
Definition invoke (ev : event) : D value := λ s,
  let '(r, w) := perform ev (world s) in
  (match r with inl e => Fails (Raises e) | inr v => Returns v end,
   {| classes := classes s; world := w; trace := trace s ++ [(ev, r)] |}).

(** [await a] *)
Definition await_value (a : value) : D value :=
  if has_attr a "__await__" then invoke (Await a) else fail (NotAwaitable a).

(** [getattr(cls.__config__, "fetch_fields", [])]: the object the
    configuration holds, or a new empty list. *)
Definition getattr_fetch_fields (cls : string) : D names_object := λ s,
  (Returns (default (Sequence []) (classes s !! cls ≫= fetch_fields)), s).

(** [*o] in a call: the names [o] yields.  An iterator is the one the
    configuration of [cls] holds, and is left exhausted there. *)
Definition star (cls : string) (o : names_object) : D (list string) := λ s,
  match o with
  | Sequence names => (Returns names, s)
  | Iterator remaining =>
      (Returns remaining,
       {| classes := <[cls := {| fetch_fields := Some (Iterator []) |}]> (classes s);
          world := world s; trace := trace s |})
  end.

(** What [iter(v)] yields: a list its items, an object what it says, [None]
    nothing. *)
Definition items_of (v : value) : option (list value) :=
  match v with
  | VList items => Some items
  | VObj o => elements o
  | VNone => None
  end.

(** [for x in v] *)
Definition iterate (v : value) : D (list value) :=
  match items_of v with
  | Some items => mret items
  | None => fail (NotIterable v)
  end.

Fixpoint comprehension (f : value → D value) (xs : list value) : D (list value) :=
  match xs with
  | [] => mret []
  | x :: xs' => y ← f x; ys ← comprehension f xs'; mret (y :: ys)
  end.

(** What leaves the body of an [async def]. *)
Definition coroutine {A} (body : D A) : D A := λ s,
  match body s with
  | (Fails (Raises e), s') =>
      (Fails (if is_stop_iteration e then RuntimeError e else Raises e), s')
  | r => r
  end.

End Machine.

Module TortoiseSchema.
Section Ops.
Context `{C : Collaborators} `{O : !ObjectModel}.

Definition get_prefetch_fields (cls : string) : D names_object :=
  getattr_fetch_fields cls.

Definition from_tortoise (cls : string) (model : value) : D value :=
  coroutine (
    _ ← lookup model "fetch_related";
    o ← get_prefetch_fields cls;
    fields ← star cls o;
    coro ← invoke (FetchRelated model fields);
    obj ← await_value coro;
    invoke (FromOrm cls obj)).

Definition from_queryset (cls : string) (queryset : value) : D value :=
  coroutine (
    _ ← lookup queryset "prefetch_related";
    o ← get_prefetch_fields cls;
    fields ← star cls o;
    q ← invoke (PrefetchRelated queryset fields);
    rows ← await_value q;
    models ← iterate rows;
    schemas ← comprehension (λ model, invoke (FromOrm cls model)) models;
    mret (VList schemas)).

Definition from_queryset_single (cls : string) (queryset : value) : D value :=
  coroutine (
    _ ← lookup queryset "prefetch_related";
    o ← get_prefetch_fields cls;
    fields ← star cls o;
    q ← invoke (PrefetchRelated queryset fields);
    obj ← await_value q;
    invoke (FromOrm cls obj)).

End Ops.
End TortoiseSchema.

Module TortoiseListSchema.
Section Ops.
Context `{C : Collaborators} `{O : !ObjectModel}.

Definition get_prefetch_fields (cls : string) : D names_object :=
  getattr_fetch_fields cls.

Definition from_queryset (cls : string) (queryset : value) : D value :=
  coroutine (
    _ ← lookup queryset "prefetch_related";
    o ← get_prefetch_fields cls;
    fields ← star cls o;
    q ← invoke (PrefetchRelated queryset fields);
    rows ← await_value q;
    invoke (FromOrm cls rows)).

End Ops.
End TortoiseListSchema.

Section Runs.
Context `{C : Collaborators} `{O : !ObjectModel}.

Definition calls_of {A} (m : D A) (s : machine) : list (event * (Exn + value)) :=
  drop (length (trace s)) (trace (m s).2).

(** The four conversions, each with the method it needs of its argument. *)
Definition conversions (cls : string) (x : value) : list (string * D value) :=
  [ ("fetch_related"%string, TortoiseSchema.from_tortoise cls x);
    ("prefetch_related"%string, TortoiseSchema.from_queryset cls x);
    ("prefetch_related"%string, TortoiseSchema.from_queryset_single cls x);
    ("prefetch_related"%string, TortoiseListSchema.from_queryset cls x) ].


(** The names a conversion on [cls] fetches with, as the table stands. *)
Definition configured (cs : gmap string Config) (cls : string) : list string :=
  match default (Sequence []) (cs !! cls ≫= fetch_fields) with
  | Sequence names => names
  | Iterator remaining => remaining
  end.

(** [fetch_fields] of [cls] can be read again: absent, or a sequence. *)
Definition rereadable (cs : gmap string Config) (cls : string) : bool :=
  match default (Sequence []) (cs !! cls ≫= fetch_fields) with
  | Sequence _ => true
  | Iterator _ => false
  end.




End Runs.

End Detailed.

(** ** The in-memory source, read closely

    Rows have [fetch_related], requests have [prefetch_related] and can be
    awaited, coroutines can be awaited; a row iterates over its fields, of
    which it has none here.  The converter of [exhausting] lets a
    [StopIteration] escape on the row [0]. *)

Module InMemoryDetailed.
Import InMemory.

Definition mem_has_attr (v : value) (name : string) : bool :=
  match v with
  | VObj (Row _) => String.eqb name "fetch_related"
  | VObj (QuerySet _ _) | VObj (QuerySetSingle _ _) =>
      String.eqb name "prefetch_related" || String.eqb name "__await__"
  | VObj (Coroutine _ _) => String.eqb name "__await__"
  | _ => false
  end.

Definition mem_elements (o : obj) : option (list value) :=
  match o with Row _ => Some [] | _ => None end.

#[export] Instance object_model : ObjectModel :=
  {| has_attr := mem_has_attr;
     elements := mem_elements;
     is_stop_iteration := λ e : string, String.eqb e "StopIteration" |}.



(** [Order] lists its relation; [Stream] gives it as an iterator;
    [Plain] sets nothing. *)
Definition schema_classes : gmap string Detailed.Config :=
  <["Order"%string := {| Detailed.fetch_fields := Some (Detailed.Sequence ["customer"%string]) |}]>
  (<["Stream"%string := {| Detailed.fetch_fields := Some (Detailed.Iterator ["customer"%string]) |}]>
  (<["Plain"%string := {| Detailed.fetch_fields := None |}]> ∅)).

Definition start : Detailed.machine :=
  {| Detailed.classes := schema_classes; Detailed.world := []; Detailed.trace := [] |}.


End InMemoryDetailed.

(** * Lemmas *)

(** Two equations for the same collaborator call give the same outcome. *)
Ltac same_call :=
  repeat match goal with
  | H1 : ?t = _, H2 : ?t = _ |- _ => rewrite H1 in H2; simplify_eq
  end.

Section RunLemmas.
Context `{C : Collaborators}.

Lemma after_after s w new w' new' :
  after (after s w new) w' new' = after s w' (new ++ new').
Proof. unfold after; simpl. by rewrite app_assoc. Qed.

Lemma after_nil s : after s (world s) [] = s.
Proof. unfold after. rewrite app_nil_r. by destruct s. Qed.

Lemma call_eq ev s :
  call ev s = (to_result (perform ev (world s)).1,
               after s (perform ev (world s)).2 [(ev, (perform ev (world s)).1)]).
Proof. unfold call. by destruct (perform ev (world s)) as [[e|v] w]. Qed.

Lemma bind_eq {A B} (m : M A) (k : A → M B) s :
  (m ≫= k) s = match m s with (Ok a, s') => k a s' | (Err e, s') => (Err e, s') end.
Proof. reflexivity. Qed.

Lemma calls_of_after {A} (m : M A) s out w new :
  m s = (out, after s w new) → calls_of m s = new.
Proof. intros E. unfold calls_of. rewrite E. simpl. apply drop_app_length. Qed.

Lemma convert_calls_nil_r cls xs : convert_calls cls xs [] = [].
Proof. by destruct xs. Qed.

Lemma fetch_await_convert_run first cls s :
  ∃ out w new,
    single_run (first (configured (classes s) cls)) cls (world s) out w new ∧
    fetch_await_convert first cls s = (out, after s w new).
Proof.
  unfold fetch_await_convert, getattr_fetch_fields. rewrite bind_eq.
  fold (configured (classes s) cls). set (ev := first _). rewrite bind_eq, call_eq.
  destruct (perform ev (world s)) as [[e|a] w] eqn:E1; simpl.
  { eexists _, _, _. split; [by apply single_fetch_raises|done]. }
  rewrite bind_eq, call_eq. simpl.
  destruct (await a w) as [[e|b] w'] eqn:E2; simpl; rewrite after_after; simpl.
  { eexists _, _, _. split; [by eapply single_await_raises|done]. }
  rewrite call_eq, after_after. simpl.
  destruct (from_orm cls b w') as [r w''] eqn:E3; simpl.
  eexists _, _, _. split; [by eapply single_converts|done].
Qed.

Lemma comprehension_converts cls xs s :
  comprehension (λ model, call (FromOrm cls model)) xs s
    = (collect (convert_all cls xs (world s)).1,
       after s (convert_all cls xs (world s)).2
         (convert_calls cls xs (convert_all cls xs (world s)).1)).
Proof.
  revert s. induction xs as [|x xs IH]; intros s.
  - simpl. unfold mret, M_ret. by rewrite after_nil.
  - simpl. rewrite bind_eq, call_eq. simpl.
    destruct (from_orm cls x (world s)) as [[e|y] w'] eqn:E; simpl.
    + by rewrite convert_calls_nil_r.
    + rewrite bind_eq, IH. simpl.
      destruct (convert_all cls xs w') as [rs w''] eqn:E'. simpl.
      rewrite after_after. simpl. by destruct (collect rs).
Qed.

Lemma from_queryset_run cls queryset s :
  ∃ out w new,
    many_run (PrefetchRelated queryset (configured (classes s) cls)) cls (world s) out w new ∧
    TortoiseSchema.from_queryset cls queryset s = (out, after s w new).
Proof.
  unfold TortoiseSchema.from_queryset, TortoiseSchema.get_prefetch_fields, getattr_fetch_fields.
  rewrite bind_eq. fold (configured (classes s) cls).
  set (ev := PrefetchRelated _ _). rewrite bind_eq, call_eq.
  destruct (perform ev (world s)) as [[e|a] w] eqn:E1; simpl.
  { eexists _, _, _. split; [by apply many_fetch_raises|done]. }
  rewrite bind_eq, call_eq. simpl.
  destruct (await a w) as [[e|b] w'] eqn:E2; simpl; rewrite after_after; simpl.
  { eexists _, _, _. split; [by eapply many_await_raises|done]. }
  rewrite bind_eq.
  destruct b as [|o|xs]; simpl.
  1,2: eexists _, _, _; split; [by eapply many_not_iterable|done].
  rewrite bind_eq, comprehension_converts. simpl.
  destruct (convert_all cls xs w') as [rs w''] eqn:Hc. simpl.
  rewrite after_after.
  eexists _, _, _. split; [by eapply many_converts|].
  by destruct (collect rs).
Qed.

Lemma from_tortoise_run cls model s :
  ∃ out w new,
    single_run (FetchRelated model (configured (classes s) cls)) cls (world s) out w new ∧
    TortoiseSchema.from_tortoise cls model s = (out, after s w new).
Proof. apply (fetch_await_convert_run (FetchRelated model)). Qed.

Lemma from_queryset_single_run cls queryset s :
  ∃ out w new,
    single_run (PrefetchRelated queryset (configured (classes s) cls)) cls (world s) out w new ∧
    TortoiseSchema.from_queryset_single cls queryset s = (out, after s w new).
Proof. apply (fetch_await_convert_run (PrefetchRelated queryset)). Qed.

Lemma list_from_queryset_run cls queryset s :
  ∃ out w new,
    single_run (PrefetchRelated queryset (configured (classes s) cls)) cls (world s) out w new ∧
    TortoiseListSchema.from_queryset cls queryset s = (out, after s w new).
Proof. apply (fetch_await_convert_run (PrefetchRelated queryset)). Qed.

End RunLemmas.


(** The calls of the converter over a list never fetch and never await. *)
Section ConvertCalls.
Context `{C : Collaborators}.


Lemma count_fetch_convert_calls cls xs rs :
  count is_fetch (convert_calls cls xs rs) = 0.
Proof.
  revert rs. induction xs as [|x xs IH]; intros [|r rs]; try done.
  apply (IH rs).
Qed.

Lemma count_await_convert_calls cls xs rs :
  count is_await (convert_calls cls xs rs) = 0.
Proof.
  revert rs. induction xs as [|x xs IH]; intros [|r rs]; try done.
  apply (IH rs).
Qed.

Lemma converted_objects_convert_calls cls xs rs :
  converted_objects (convert_calls cls xs rs) = take (length rs) xs.
Proof.
  revert rs. induction xs as [|x xs IH]; intros [|r rs]; try done.
  simpl. f_equal. apply (IH rs).
Qed.

Lemma collect_returned ys : collect (inr <$> ys) = Ok ys.
Proof. induction ys as [|y ys IH]; [done|]. rewrite fmap_cons. cbn [collect]. by rewrite IH. Qed.

Lemma convert_all_returned cls xs w ys w' :
  convert_all cls xs w = (inr <$> ys, w') →
  Forall2 (λ x y, ∃ w1 w2, from_orm cls x w1 = (inr y, w2)) xs ys.
Proof.
  revert w ys. induction xs as [|x xs IH]; intros w ys E; simpl in E.
  - destruct ys; simplify_eq. constructor.
  - destruct (from_orm cls x w) as [[e|y] w1] eqn:E1.
    + by destruct ys as [|? [|]].
    + destruct (convert_all cls xs w1) as [rs w2] eqn:E2.
      destruct ys as [|y' ys]; [done|]. rewrite fmap_cons in E. simplify_eq.
      constructor; eauto.
Qed.

Lemma convert_calls_returned cls xs ys :
  convert_calls cls xs (inr <$> ys) = zip_with (λ x y, (FromOrm cls x, inr y)) xs ys.
Proof. unfold convert_calls. revert ys. induction xs; intros [|]; simpl; f_equal; auto. Qed.

(** A comprehension that returns has converted every element. *)
Lemma convert_all_complete cls xs w :
  match collect (convert_all cls xs w).1 with
  | Ok _ => length (convert_all cls xs w).1 = length xs
  | Err (Raised _) => True
  | Err (NotIterable _) => False
  end.
Proof.
  revert w. induction xs as [|x xs IH]; intros w; simpl; [done|].
  destruct (from_orm cls x w) as [[e|y] w1]; simpl; [done|].
  specialize (IH w1). destruct (convert_all cls xs w1) as [rs w2]. simpl in *.
  destruct (collect rs) as [ys|[e|v]]; simpl; auto.
Qed.

Lemma count_cons p c (cs : list (event * (Exn + value))) :
  count p (c :: cs) = (if p c then 1 else 0) + count p cs.
Proof. unfold count. simpl. by destruct (p c). Qed.

End ConvertCalls.

(** Closes the case where the awaited value is known to be a list and is
    assumed not to be one. *)
Ltac is_a_list :=
  solve [ exfalso;
          match goal with H : ∀ items, _ ≠ VList items |- _ => by eapply H end ].

Ltac use_run H :=
  let Hrun := fresh "Hrun" in
  let Heq := fresh "Heq" in
  destruct H as (? & ? & ? & Hrun & Heq);
  rewrite ?(calls_of_after _ _ _ _ _ Heq), ?Heq; simpl;
  destruct Hrun; simpl.

(** Splits a statement about all four conversions into one goal each and
    takes the cases of that conversion's run. *)
Ltac each_conversion cls x s :=
  unfold conversions; repeat first [apply Forall_cons_2 | apply Forall_nil_2];
  [ use_run (from_tortoise_run cls x s)
  | use_run (from_queryset_run cls x s)
  | use_run (from_queryset_single_run cls x s)
  | use_run (list_from_queryset_run cls x s) ].

(** * The claims *)

Section Claims.
Context `{C : Collaborators}.

(** What [from_tortoise] hands to the converter is the value the awaited
    [fetch_related] resolved to; [model] itself is passed to [fetch_related]
    only. *)
Lemma from_tortoise_calls cls model s coro w1 obj w2 :
  fetch_related model (configured (classes s) cls) (world s) = (inr coro, w1) →
  await coro w1 = (inr obj, w2) →
  calls_of (TortoiseSchema.from_tortoise cls model) s
    = [(FetchRelated model (configured (classes s) cls), inr coro);
       (Await coro, inr obj);
       (FromOrm cls obj, (from_orm cls obj w2).1)].
Proof.
  intros Hf Ha.
  use_run (from_tortoise_run cls model s); cbn [perform] in *; same_call; try done.
  by match goal with H : from_orm _ _ _ = _ |- _ => rewrite H end.
Qed.


(** C3.  [get_prefetch_fields] of a class whose configuration does not
    define [fetch_fields] returns the empty list; and for every class, of
    either schema base, it returns (never raises) the configured names and
    leaves the whole machine as it was: classes, collaborators' world and
    trace (no call is made). *)
Theorem get_prefetch_fields_pure cls s :
  classes s !! cls ≫= fetch_fields = None →
  (TortoiseSchema.get_prefetch_fields cls s = (Ok [], s) ∧
   TortoiseListSchema.get_prefetch_fields cls s = (Ok [], s)) ∧
  (∀ cls' s',
     TortoiseSchema.get_prefetch_fields cls' s' = (Ok (configured (classes s') cls'), s') ∧
     TortoiseListSchema.get_prefetch_fields cls' s' = (Ok (configured (classes s') cls'), s') ∧
     calls_of (TortoiseSchema.get_prefetch_fields cls') s' = [] ∧
     calls_of (TortoiseListSchema.get_prefetch_fields cls') s' = []).
Proof.
  intros Hnone. split.
  - unfold TortoiseSchema.get_prefetch_fields, TortoiseListSchema.get_prefetch_fields,
      getattr_fetch_fields. by rewrite Hnone.
  - intros cls' s'. repeat split; unfold calls_of; simpl; by rewrite drop_all.
Qed.

(** C4.  When the augmented request resolves to the list [rows] and the
    converter returns for each of them, [TortoiseSchema.from_queryset]
    returns the list of their conversions in the order of [rows]: one
    converter call per record, on that record alone, the i-th schema being
    what the converter returned for the i-th record. *)
Theorem from_queryset_preserves_order cls queryset s q w1 rows w2 schemas w3 :
  prefetch_related queryset (configured (classes s) cls) (world s) = (inr q, w1) →
  await q w1 = (inr (VList rows), w2) →
  convert_all cls rows w2 = (inr <$> schemas, w3) →
  (TortoiseSchema.from_queryset cls queryset s).1 = Ok (VList schemas) ∧
  Forall2 (λ row schema, ∃ w w', from_orm cls row w = (inr schema, w')) rows schemas ∧
  drop 2 (calls_of (TortoiseSchema.from_queryset cls queryset) s)
    = zip_with (λ row schema, (FromOrm cls row, inr schema)) rows schemas.
Proof.
  intros Hq Hrows Hall.
  split; [|split; [by eapply convert_all_returned|]];
    use_run (from_queryset_run cls queryset s); cbn [perform] in *; same_call;
    try is_a_list.
  - by rewrite collect_returned.
  - by rewrite convert_calls_returned.
Qed.

(** C5.  When the augmented request resolves to no record,
    [TortoiseSchema.from_queryset] returns the empty list, having called
    the converter not at all. *)
Theorem from_queryset_empty cls queryset s q w1 w2 :
  prefetch_related queryset (configured (classes s) cls) (world s) = (inr q, w1) →
  await q w1 = (inr (VList []), w2) →
  TortoiseSchema.from_queryset cls queryset s
    = (Ok (VList []),
       after s w2 [(PrefetchRelated queryset (configured (classes s) cls), inr q);
                   (Await q, inr (VList []))]).
Proof.
  intros Hq Hrows.
  use_run (from_queryset_run cls queryset s); cbn [perform] in *; same_call;
    try is_a_list.
  match goal with H : convert_all _ [] _ = _ |- _ => simpl in H; simplify_eq end.
  done.
Qed.


(** C10.  When the augmented request resolves to the list [rows],
    [TortoiseListSchema.from_queryset] calls the converter once, on the
    whole list, however many records it has; [TortoiseSchema.from_queryset]
    calls it on the records one by one, in order, up to the first call that
    raises: on every record, or else it fails with what that call raised. *)
Theorem list_schema_converts_whole_result cls queryset s q w1 rows w2 :
  prefetch_related queryset (configured (classes s) cls) (world s) = (inr q, w1) →
  await q w1 = (inr (VList rows), w2) →
  converted_objects (calls_of (TortoiseListSchema.from_queryset cls queryset) s)
    = [VList rows] ∧
  count is_from_orm (calls_of (TortoiseListSchema.from_queryset cls queryset) s) = 1 ∧
  converted_objects (calls_of (TortoiseSchema.from_queryset cls queryset) s)
    = take (length (convert_all cls rows w2).1) rows ∧
  (converted_objects (calls_of (TortoiseSchema.from_queryset cls queryset) s) = rows ∨
   ∃ e, (TortoiseSchema.from_queryset cls queryset s).1 = Err (Raised e)).
Proof.
  intros Hq Hrows.
  split; [|split; [|split]].
  1,2: use_run (list_from_queryset_run cls queryset s); cbn [perform] in *; same_call; done.
  all: use_run (from_queryset_run cls queryset s); cbn [perform] in *; same_call;
    try is_a_list.
  - match goal with H : convert_all _ _ _ = _ |- _ => rewrite H end.
    apply converted_objects_convert_calls.
  - rewrite converted_objects_convert_calls.
    match goal with H : convert_all ?c ?xs ?w = _ |- _ =>
      pose proof (convert_all_complete c xs w) as Hlen; rewrite H in Hlen
    end.
    simpl in Hlen. destruct (collect rs) as [ys|[e|v]]; [left|right; by eexists|done].
    by rewrite take_ge by lia.
Qed.

End Claims.

(** * Runs on the in-memory source *)

Section InMemoryRuns.
Import InMemory.

(** C1.  [Order] has [fetch_fields = ["customer"]].  [from_tortoise] on an
    order makes one [fetch_related] call on it, with the relation set
    [{"customer"}], and awaits it, which loads the relation into the
    record; it then calls the converter once, on what the await resolved to.
    With a source whose [fetch_related] resolves to [None], as Tortoise's
    does, that argument is [None] and not the refreshed record, and the
    conversion fails. *)
Theorem from_tortoise_converts_fetch_result :
  calls_of (TortoiseSchema.from_tortoise "Order" order) start
    = [(FetchRelated order ["customer"%string], inr (ref (Coroutine 1 ["customer"%string])));
       (Await (ref (Coroutine 1 ["customer"%string])), inr VNone);
       (FromOrm "Order" VNone, inl "ValidationError"%string)] ∧
  relation_sets (calls_of (TortoiseSchema.from_tortoise "Order" order) start)
    = [{["customer"%string]}] ∧
  world (TortoiseSchema.from_tortoise "Order" order start).2 = [(1, "customer"%string)] ∧
  converted_objects (calls_of (TortoiseSchema.from_tortoise "Order" order) start)
    = [VNone] ∧
  (TortoiseSchema.from_tortoise "Order" order start).1
    = Err (Raised "ValidationError"%string).
Proof.
  assert (calls_of (TortoiseSchema.from_tortoise "Order" order) start
    = [(FetchRelated order ["customer"%string], inr (ref (Coroutine 1 ["customer"%string])));
       (Await (ref (Coroutine 1 ["customer"%string])), inr VNone);
       (FromOrm "Order" VNone, inl "ValidationError"%string)]) as Hcalls
    by (vm_compute; reflexivity).
  rewrite Hcalls. repeat split; vm_compute; reflexivity.
Qed.


Lemma get_prefetch_fields_pure_witness :
  classes start !! "Plain"%string ≫= fetch_fields = None ∧
  TortoiseSchema.get_prefetch_fields "Plain" start = (Ok [], start) ∧
  TortoiseListSchema.get_prefetch_fields "Plain" start = (Ok [], start).
Proof.
  assert (classes start !! "Plain"%string ≫= fetch_fields = None) as H
    by (vm_compute; reflexivity).
  split; [exact H|].
  exact (proj1 (get_prefetch_fields_pure "Plain" start H)).
Defined.

Lemma from_queryset_preserves_order_witness :
  (TortoiseSchema.from_queryset "Item" items start).1
    = Ok (VList [ref (Schema "Item" 1 ["a"%string; "a__b"%string]);
                 ref (Schema "Item" 2 ["a"%string; "a__b"%string]);
                 ref (Schema "Item" 3 ["a"%string; "a__b"%string])]).
Proof.
  refine (proj1 (from_queryset_preserves_order (U:=universe) (C:=collaborators) "Item" items start
    (ref (QuerySet [1; 2; 3] ["a"%string; "a__b"%string])) []
    [ref (Row 1); ref (Row 2); ref (Row 3)]
    (load 1 ["a"%string; "a__b"%string] ++ load 2 ["a"%string; "a__b"%string]
       ++ load 3 ["a"%string; "a__b"%string])
    _ _ _ _ _)); vm_compute; reflexivity.
Defined.

Lemma from_queryset_empty_witness :
  (TortoiseSchema.from_queryset "Item" no_items start).1 = Ok (VList []).
Proof.
  rewrite (from_queryset_empty (U:=universe) (C:=collaborators) "Item" no_items start
    (ref (QuerySet [] ["a"%string; "a__b"%string])) [] []);
    [reflexivity | vm_compute; reflexivity | vm_compute; reflexivity].
Defined.


Lemma list_schema_converts_whole_result_witness :
  converted_objects
    (calls_of (TortoiseListSchema.from_queryset "Item" items) start)
    = [VList [ref (Row 1); ref (Row 2); ref (Row 3)]].
Proof.
  refine (proj1 (list_schema_converts_whole_result (U:=universe) (C:=collaborators) "Item" items start
    (ref (QuerySet [1; 2; 3] ["a"%string; "a__b"%string])) [] _ _ _ _));
    vm_compute; reflexivity.
Defined.

(** The two configurations of the specification, run: no [fetch_fields]
    gives a fetch without relation names; [["a"; "a__b"]] gives the set of
    the two names, which is the set of [["a__b"; "a"]] as well. *)
Example unconfigured_fetch_has_no_relation :
  augmentations (calls_of (TortoiseSchema.from_queryset "Plain" items) start) = [[]] ∧
  relation_sets (calls_of (TortoiseSchema.from_queryset "Plain" items) start) = [∅].
Proof. split; vm_compute; reflexivity. Qed.

Example nested_relations_as_a_set :
  relation_sets (calls_of (TortoiseSchema.from_queryset "Item" items) start)
    = [{["a"%string; "a__b"%string]}] ∧
  ({["a"%string; "a__b"%string]} : gset string) = {["a__b"%string; "a"%string]}.
Proof. split; [vm_compute; reflexivity|set_solver]. Qed.

(** A request for a row that does not exist: the ORM's exception is the
    outcome, and the converter is not called. *)
Example does_not_exist_propagates :
  (TortoiseSchema.from_queryset_single "Order" order_missing start).1
    = Err (Raised "DoesNotExist"%string) ∧
  converted_objects
    (calls_of (TortoiseSchema.from_queryset_single "Order" order_missing) start)
    = [].
Proof. split; vm_compute; reflexivity. Qed.

End InMemoryRuns.

(** * Further properties of the conversions *)

Section ConvertAll.
Context `{C : Collaborators}.







Lemma converter_classes_convert_calls cls xs rs :
  Forall (λ c, c = cls) (converter_classes (convert_calls cls xs rs)).
Proof.
  revert rs. induction xs as [|x xs IH]; intros [|r rs]; try (by constructor).
Qed.

End ConvertAll.

Section Further.
Context `{C : Collaborators}.


(** X2.  When the awaited request resolves to [None],
    [TortoiseSchema.from_queryset] fails with the interpreter's [TypeError]
    at its [for], after the one fetch and the one await and without calling
    the converter. *)
Theorem from_queryset_none_not_iterable cls queryset s q w1 w2 :
  prefetch_related queryset (configured (classes s) cls) (world s) = (inr q, w1) →
  await q w1 = (inr VNone, w2) →
  TortoiseSchema.from_queryset cls queryset s
    = (Err (NotIterable VNone),
       after s w2 [(PrefetchRelated queryset (configured (classes s) cls), inr q);
                   (Await q, inr VNone)]).
Proof.
  intros Hq Hnone.
  use_run (from_queryset_run cls queryset s); cbn [perform] in *; same_call; done.
Qed.

(** X3.  The three fetch-await-convert conversions call the converter
    exactly on what the await resolved to: once, on that value, when the
    await returned, and not at all when the fetch call or the await
    raised. *)
Theorem single_conversions_convert_what_resolved cls x s :
  converted_objects (calls_of (TortoiseSchema.from_tortoise cls x) s)
    = resolved (calls_of (TortoiseSchema.from_tortoise cls x) s) ∧
  converted_objects (calls_of (TortoiseSchema.from_queryset_single cls x) s)
    = resolved (calls_of (TortoiseSchema.from_queryset_single cls x) s) ∧
  converted_objects (calls_of (TortoiseListSchema.from_queryset cls x) s)
    = resolved (calls_of (TortoiseListSchema.from_queryset cls x) s).
Proof.
  split; [|split].
  - use_run (from_tortoise_run cls x s); done.
  - use_run (from_queryset_single_run cls x s); done.
  - use_run (list_from_queryset_run cls x s); done.
Qed.


(** X6.  A conversion on the class [cls] calls the converter of [cls] and
    of no other class. *)
Theorem conversions_use_own_converter cls x s :
  Forall (λ op : M value, Forall (λ c, c = cls) (converter_classes (calls_of op s)))
         (conversions cls x).
Proof.
  each_conversion cls x s; repeat constructor.
  apply converter_classes_convert_calls.
Qed.


End Further.

Section FurtherRuns.
Import InMemory.


Lemma from_queryset_none_not_iterable_witness :
  (TortoiseSchema.from_queryset (C:=InMemoryOptional.collaborators)
     "Order" order_missing start).1
    = Err (NotIterable VNone).
Proof.
  rewrite (from_queryset_none_not_iterable (C:=InMemoryOptional.collaborators)
    "Order" order_missing start (ref (QuerySetSingle 0 ["customer"%string])) [] []);
    [reflexivity | vm_compute; reflexivity | vm_compute; reflexivity].
Defined.

End FurtherRuns.

(** * The conversions read closely *)

Section DetailedLemmas.
Context `{C : Collaborators} `{O : !ObjectModel}.

Definition lift (r : result (list value)) : Detailed.outcome (list value) :=
  match r with
  | Ok ys => Detailed.Returns ys
  | Err (Raised e) => Detailed.Fails (Detailed.Raises e)
  | Err (NotIterable v) => Detailed.Fails (Detailed.NotIterable v)
  end.

Lemma detailed_comprehension cls xs s :
  Detailed.comprehension (λ model, Detailed.invoke (FromOrm cls model)) xs s
    = (lift (collect (convert_all cls xs (Detailed.world s)).1),
       {| Detailed.classes := Detailed.classes s;
          Detailed.world := (convert_all cls xs (Detailed.world s)).2;
          Detailed.trace :=
            Detailed.trace s
              ++ convert_calls cls xs (convert_all cls xs (Detailed.world s)).1 |}).
Proof.
  revert s. induction xs as [|x xs IH]; intros s.
  - simpl. unfold mret, Detailed.D_ret. rewrite app_nil_r. by destruct s.
  - simpl. unfold mbind, Detailed.D_bind, Detailed.invoke at 1. simpl.
    destruct (from_orm cls x (Detailed.world s)) as [[e|y] w'] eqn:E; simpl.
    + by rewrite convert_calls_nil_r.
    + rewrite IH. simpl.
      destruct (convert_all cls xs w') as [rs w''] eqn:E'. simpl.
      rewrite <- app_assoc. simpl. by destruct (collect rs) as [ys|[e|v]].
Qed.






End DetailedLemmas.




(** Runs a detailed conversion symbolically: every test the interpreter
    makes and every outcome of a call becomes a case. *)
Ltac detailed_unfold :=
  unfold Detailed.TortoiseSchema.from_tortoise, Detailed.TortoiseSchema.from_queryset,
    Detailed.TortoiseSchema.from_queryset_single, Detailed.TortoiseListSchema.from_queryset,
    Detailed.TortoiseSchema.get_prefetch_fields, Detailed.TortoiseListSchema.get_prefetch_fields,
    Detailed.calls_of, Detailed.coroutine, Detailed.lookup, Detailed.await_value,
    Detailed.getattr_fetch_fields, Detailed.star, Detailed.iterate, Detailed.fail, Detailed.invoke,
    Detailed.configured, Detailed.rereadable,
    mbind, Detailed.D_bind, mret, Detailed.D_ret; simpl.

Ltac detailed_case cls :=
  first
    [ match goal with
      | H : Detailed.comprehension _ ?xs ?s = _ |- _ =>
          let E := fresh in
          pose proof (eq_trans (eq_sym (detailed_comprehension cls xs s)) H) as E;
          clear H;
          destruct (convert_all cls xs (Detailed.world s)) as [? ?] eqn:?;
          unfold lift in E
      end
    | case_match ];
  simpl in *; simplify_eq.

Ltac detailed_run cls :=
  detailed_unfold; repeat detailed_case cls;
  rewrite <- ?app_assoc; rewrite ?drop_app_length, ?drop_all; simpl.

Ltac which_conversion H :=
  unfold Detailed.conversions in H;
  rewrite !elem_of_cons, elem_of_nil in H;
  destruct H as [H|[H|[H|[H|[]]]]]; simplify_eq.

Section DetailedClaims.
Context `{C : Collaborators} `{O : !ObjectModel}.



(** C8, as amended.  A conversion whose argument has the method it calls
    ([fetch_related] for [from_tortoise], [prefetch_related] for the
    others) issues exactly one augmented fetch, as its first call.  On an
    argument without the method the attribute lookup raises
    [AttributeError] and no fetch is issued, nor any other call. *)
Theorem one_fetch_when_argument_has_method cls x s name op :
  (name, op) ∈ Detailed.conversions cls x →
  if has_attr x name
  then count is_fetch (Detailed.calls_of op s) = 1 ∧
       is_fetch <$> head (Detailed.calls_of op s) = Some true
  else Detailed.calls_of op s = [] ∧
       (op s).1 = Detailed.Fails (Detailed.AttributeError x name).
Proof.
  intros Hop. which_conversion Hop; detailed_run cls;
    rewrite ?count_cons, ?count_fetch_convert_calls; done.
Qed.



End DetailedClaims.

(** * Close readings run on the in-memory source *)

Section DetailedRuns.
Import InMemory InMemoryDetailed.

(** Against C8 as stated: [from_tortoise(None)] issues no fetch. *)
Lemma from_tortoise_on_none_fetches_nothing :
  count is_fetch (Detailed.calls_of (Detailed.TortoiseSchema.from_tortoise "Order" VNone) start)
    = 0 ∧
  (Detailed.TortoiseSchema.from_tortoise "Order" VNone start).1
    = Detailed.Fails (Detailed.AttributeError VNone "fetch_related").
Proof. split; vm_compute; reflexivity. Qed.



Lemma one_fetch_when_argument_has_method_witness :
  ("fetch_related"%string, Detailed.TortoiseSchema.from_tortoise "Order" order)
    ∈ Detailed.conversions "Order" order ∧
  count is_fetch (Detailed.calls_of (Detailed.TortoiseSchema.from_tortoise "Order" order) start)
    = 1.
Proof.
  assert (("fetch_related"%string, Detailed.TortoiseSchema.from_tortoise "Order" order)
            ∈ Detailed.conversions "Order" order) as H by apply list_elem_of_here.
  split; [exact H|].
  exact (proj1 (one_fetch_when_argument_has_method "Order" order start _ _ H)).
Defined.



End DetailedRuns.
